(** * scripts/pipeline/transpile.py: the file echo utility

    A shallow embedding of the script [scripts/pipeline/transpile.py] and
    of the part of the Python runtime it touches, followed by the
    properties of its command-line behaviour.

    Modelling conventions (CPython 3 on a POSIX system):
    - text is a [string]; a text file is given by the text its bytes
      decode to in the locale's encoding, and standard output is taken
      to encode without loss; a file whose bytes do not decode is an
      entry of its own, on which a text-mode read raises
      [UnicodeDecodeError];
    - a text-mode [open(path, 'r')] reads with universal newlines: every
      carriage return / line feed pair and every lone carriage return is
      returned as one line feed; text written to standard output is not
      translated;
    - [sys.argv] is the script's name followed by the command-line
      arguments;
    - the third-party package py2ts is installed, and importing it has
      no observable effect; what the unused function [main] would get
      from that package is a parameter ([externals]);
    - every observable action of the script is appended to a trace, from
      which standard output and standard error are read back. What the
      interpreter itself reports about an unhandled exception is not a
      write of the script: it is represented by the raised exception the
      run ends with, and by the exit code derived from it. *)

From Stdlib Require Import String Ascii List ZArith Bool Lia.
Import ListNotations.
Local Open Scope string_scope.

(** ** The Python runtime, as far as the script uses it *)

Module Runtime.

(** Exceptions the script can meet. [SystemExit] is the only one that is
    not a subclass of [Exception]. *)
Inductive exn : Type :=
| IndexError
| NameError (name : string)
| FileNotFoundError (path : string)
| PermissionError (path : string)
| IsADirectoryError (path : string)
| NotADirectoryError (path : string)
| OSError (path : string)
| UnicodeDecodeError
| LibraryError (message : string)
| SystemExit (code : Z).

Definition is_Exception (e : exn) : bool :=
  match e with
  | SystemExit _ => false
  | _ => true
  end.

(** What a path refers to in the file system. A regular file is either a
    text file, given by the text its bytes decode to, or a file whose
    bytes do not decode in the locale's encoding. A path that names
    nothing is one whose last component is absent ([NoEntry]), one that
    goes through something that is no directory ([UnderAFile]), or one
    the system refuses for another reason, such as a name that is too
    long ([BadName]). *)
Inductive fs_entry : Type :=
| NoEntry
| Directory
| RegularFile (readable : bool) (content : string)
| UnderAFile
| BadName
| Undecodable (readable : bool).

(** Whether a path names something, as [os.path.exists] tells. *)
Definition entry_exists (e : fs_entry) : bool :=
  match e with
  | NoEntry | UnderAFile | BadName => false
  | Directory | RegularFile _ _ | Undecodable _ => true
  end.

(** Objects bound in the module's namespace. *)
Inductive pyobj : Type :=
| ModuleObj (name : string)
| FunctionObj (name : string).

(** Observable actions, in the order they happen. *)
Inductive event : Type :=
| EvStdout (text : string)
| EvStderr (text : string)
| EvExists (path : string)
| EvOpen (path : string) (ok : bool)
| EvRead (path : string)
| EvClose (path : string)
| EvCall (name : string).

Record world : Type := mkWorld {
  argv : list string;
  files : string -> fs_entry;
  globals : list (string * pyobj);
  trace : list event
}.

Inductive result (A : Type) : Type :=
| Val (a : A)
| Exc (e : exn).
Arguments Val {A} a.
Arguments Exc {A} e.

(** Computations: state passing over [world], with exceptions. *)
Definition M (A : Type) : Type := world -> result A * world.

Definition ret {A} (a : A) : M A := fun w => (Val a, w).

Definition bind {A B} (m : M A) (k : A -> M B) : M B :=
  fun w =>
    match m w with
    | (Val a, w') => k a w'
    | (Exc e, w') => (Exc e, w')
    end.

Definition raise {A} (e : exn) : M A := fun w => (Exc e, w).

Declare Scope py_scope.
Delimit Scope py_scope with py.
Notation "x <- m ;; k" := (bind m (fun x => k))
  (at level 61, m at next level, right associativity) : py_scope.
Notation "m ;; k" := (bind m (fun _ => k))
  (at level 61, right associativity) : py_scope.
Local Open Scope py_scope.

Definition emit (ev : event) : M unit :=
  fun w => (Val tt, mkWorld (argv w) (files w) (globals w) (trace w ++ [ev])).

Definition bind_global (name : string) (o : pyobj) : M unit :=
  fun w => (Val tt, mkWorld (argv w) (files w) ((name, o) :: globals w) (trace w)).

(** [import m] and [from pkg import m]: the name is bound, nothing else
    is observable. *)
Definition import_ (name : string) : M unit := bind_global name (ModuleObj name).

(** [def name(): ...] creates a function object; the body does not run. *)
Definition def_ (name : string) : M unit := bind_global name (FunctionObj name).

Definition LF : ascii := ascii_of_nat 10.
Definition CR : ascii := ascii_of_nat 13.
Definition DQ : ascii := ascii_of_nat 34.
Definition nl : string := String LF EmptyString.
Definition dquote : string := String DQ EmptyString.

(** [print(s)]: the text and the line end go to standard output. *)
Definition print_ (s : string) : M unit := emit (EvStdout (s ++ nl)).

(** [print(s, file=sys.stderr)]. *)
Definition print_stderr (s : string) : M unit := emit (EvStderr (s ++ nl)).

(** [sys.exit(n)]. *)
Definition sys_exit {A} (n : Z) : M A := raise (SystemExit n).

(** [len(sys.argv)]. *)
Definition sys_argv_len : M nat := fun w => (Val (length (argv w)), w).

(** [sys.argv[i]] for a non-negative constant [i]. *)
Definition sys_argv_index (i : nat) : M string :=
  fun w =>
    match nth_error (argv w) i with
    | Some a => (Val a, w)
    | None => (Exc IndexError, w)
    end.

(** [os.path.exists(p)]. *)
Definition os_path_exists (p : string) : M bool :=
  emit (EvExists p) ;;
  fun w =>
    (Val (entry_exists (files w p)), w).

(** [os.path.basename(p)]: what follows the last slash. *)
Fixpoint basename_from (s acc : string) : string :=
  match s with
  | EmptyString => acc
  | String c r =>
      if Ascii.eqb c "/"%char then basename_from r EmptyString
      else basename_from r (acc ++ String c EmptyString)
  end.

Definition os_path_basename (p : string) : string := basename_from p EmptyString.

(** Universal newlines, as a text-mode read applies them. *)
Fixpoint universal_newlines (s : string) : string :=
  match s with
  | EmptyString => EmptyString
  | String c r =>
      if Ascii.eqb c CR then
        match r with
        | String d r' =>
            if Ascii.eqb d LF then String LF (universal_newlines r')
            else String LF (universal_newlines r)
        | EmptyString => String LF EmptyString
        end
      else String c (universal_newlines r)
  end.

(** An open file: its path, the text behind it, and whether its bytes
    decode to that text at all. *)
Record handle : Type := mkHandle {
  h_path : string;
  h_text : string;
  h_decodes : bool
}.

(** What opening an entry for reading gives. *)
Definition open_result (p : string) (e : fs_entry) : handle + exn :=
  match e with
  | NoEntry => inr (FileNotFoundError p)
  | Directory => inr (IsADirectoryError p)
  | RegularFile false _ => inr (PermissionError p)
  | RegularFile true c => inl (mkHandle p c true)
  | UnderAFile => inr (NotADirectoryError p)
  | BadName => inr (OSError p)
  | Undecodable false => inr (PermissionError p)
  | Undecodable true => inl (mkHandle p EmptyString false)
  end.

(** [open(p, 'r')]. *)
Definition open_r (p : string) : M handle :=
  fun w =>
    match open_result p (files w p) with
    | inl h => (emit (EvOpen p true) ;; ret h) w
    | inr e => (emit (EvOpen p false) ;; raise e) w
    end.

(** [f.read()] on a freshly opened file in text mode: the decoded text
    with universal newlines, or [UnicodeDecodeError] when the bytes do
    not decode. *)
Definition read (f : handle) : M string :=
  emit (EvRead (h_path f)) ;;
  if h_decodes f then ret (universal_newlines (h_text f))
  else raise UnicodeDecodeError.

Definition close (f : handle) : M unit := emit (EvClose (h_path f)).

(** [try: body finally: cleanup]. *)
Definition finally_ {A} (body : M A) (cleanup : M unit) : M A :=
  fun w =>
    match body w with
    | (Val a, w') => (cleanup ;; ret a) w'
    | (Exc e, w') => (cleanup ;; raise e) w'
    end.

(** [with open(p, 'r') as f: body]. *)
Definition with_open_r {A} (p : string) (body : handle -> M A) : M A :=
  f <- open_r p ;; finally_ (body f) (close f).

(** [try: body except Exception as e: handler]. *)
Definition try_except_Exception {A} (body : M A) (handler : exn -> M A) : M A :=
  fun w =>
    match body w with
    | (Val a, w') => (Val a, w')
    | (Exc e, w') => if is_Exception e then handler e w' else (Exc e, w')
    end.

(** Standard output and standard error, read back from a trace. *)
Fixpoint stdout_of (t : list event) : string :=
  match t with
  | [] => EmptyString
  | EvStdout s :: t' => s ++ stdout_of t'
  | _ :: t' => stdout_of t'
  end.

Fixpoint stderr_of (t : list event) : string :=
  match t with
  | [] => EmptyString
  | EvStderr s :: t' => s ++ stderr_of t'
  | _ :: t' => stderr_of t'
  end.

(** The process exit code the interpreter derives from how the script
    ended: 0 at the end of the module, the low byte of the argument of
    [sys.exit], 1 for any other unhandled exception. *)
Definition exit_code {A} (r : result A) : Z :=
  match r with
  | Val _ => 0
  | Exc (SystemExit n) => Z.land n 255
  | Exc _ => 1
  end.

End Runtime.

(** ** The script *)

Module Transpile.
Import Runtime.
Local Open Scope py_scope.

(** What the function [main] would obtain from outside the repository:
    the outcome of [from py2ts.python2ts import schemas2typescript, Schema],
    the outcome of [Schema(file_path, None)], and the text [str(e)] of a
    caught exception. [None] stands for "no exception". *)
Record externals : Type := mkExternals {
  import_Schema : option exn;
  Schema_init : string -> option exn;
  str_exn : exn -> string
}.

Definition outcome (o : option exn) : M unit :=
  match o with
  | None => ret tt
  | Some e => raise e
  end.

(** Lines 6 to 58: [def main()]. *)
Definition main (X : externals) : M unit :=
  n <- sys_argv_len ;;
  (if negb (Nat.eqb n 2) then
     print_stderr "Usage: python transpile.py <path_to_python_file>" ;;
     sys_exit 1
   else ret tt) ;;
  file_path <- sys_argv_index 1 ;;
  found <- os_path_exists file_path ;;
  (if negb found then
     print_stderr ("Error: File not found at " ++ file_path) ;;
     sys_exit 1
   else ret tt) ;;
  try_except_Exception
    (outcome (import_Schema X) ;;
     outcome (Schema_init X file_path) ;;
     content <- with_open_r file_path (fun f => read f) ;;
     print_ ("// Transpiled content from " ++ os_path_basename file_path
             ++ nl ++ nl ++ content))
    (fun e =>
       print_stderr ("An error occurred during transpilation: " ++ str_exn X e) ;;
       sys_exit 1).

(** The call expression [main()]: the name is looked up in the module's
    namespace and the body of the function runs. *)
Definition lookup_global (name : string) : M pyobj :=
  fun w =>
    match find (fun b => String.eqb (fst b) name) (globals w) with
    | Some (_, o) => (Val o, w)
    | None => (Exc (NameError name), w)
    end.

Definition call_main (X : externals) : M unit :=
  lookup_global "main" ;;
  emit (EvCall "main") ;;
  main X.

Definition header : string := "// SIMULATED transpilation of ".

(** Lines 66 to 68: the body of [if __name__ == "__main__":]. *)
Definition main_block : M unit :=
  a <- sys_argv_index 1 ;;
  print_ (header ++ a) ;;
  p <- sys_argv_index 1 ;;
  with_open_r p (fun f =>
    content <- read f ;;
    print_ content).

(** The whole file, executed as a module named [name]. *)
Definition transpile_py (name : string) : M unit :=
  import_ "sys" ;;
  import_ "os" ;;
  import_ "python2ts" ;;
  def_ "main" ;;
  if String.eqb name "__main__" then main_block else ret tt.

(** An invocation [python transpile.py args...] in a file system. *)
Record invocation : Type := mkInvocation {
  script : string;
  args : list string;
  fsys : string -> fs_entry
}.

Definition boot (inv : invocation) : world :=
  mkWorld (script inv :: args inv) (fsys inv) [] [].

(** Running the file as a script. *)
Definition run_script (inv : invocation) : result unit * world :=
  transpile_py "__main__" (boot inv).

(** Running lines 66 to 68 alone. *)
Definition run_block_alone (inv : invocation) : result unit * world :=
  main_block (boot inv).

(** What can be observed of a run from outside the process. *)
Definition stdout (r : result unit * world) : string := stdout_of (trace (snd r)).
Definition stderr (r : result unit * world) : string := stderr_of (trace (snd r)).
Definition status (r : result unit * world) : Z := exit_code (fst r).
Definition files_after (r : result unit * world) : string -> fs_entry := files (snd r).

Record behaviour : Type := mkBehaviour {
  b_stdout : string;
  b_stderr : string;
  b_status : Z;
  b_ending : result unit;
  b_files : string -> fs_entry
}.

Definition observe (r : result unit * world) : behaviour :=
  mkBehaviour (stdout r) (stderr r) (status r) (fst r) (files_after r).

(** The text after the header line of [path] in [out], when [out]
    starts with that line. *)
Fixpoint strip_prefix (pre s : string) : option string :=
  match pre, s with
  | EmptyString, _ => Some s
  | String a pre', String b s' =>
      if Ascii.eqb a b then strip_prefix pre' s' else None
  | String _ _, EmptyString => None
  end.

Definition after_header (path out : string) : option string :=
  strip_prefix (header ++ path ++ nl) out.

(** Side effects by kind. *)
Definition writes_stdout (ev : event) : bool :=
  match ev with EvStdout _ => true | _ => false end.

Definition writes_stderr (ev : event) : bool :=
  match ev with EvStderr _ => true | _ => false end.

(** Looking at the file system without changing it. *)
Definition reads_file_system (ev : event) : bool :=
  match ev with
  | EvExists _ | EvOpen _ _ | EvRead _ | EvClose _ => true
  | _ => false
  end.

Definition has_CR (s : string) : bool :=
  existsb (Ascii.eqb CR) (list_ascii_of_string s).

End Transpile.

Import Runtime Transpile.
Local Open Scope py_scope.

(** ** Sample invocations *)

Definition hello_text : string := "print(" ++ dquote ++ "hi" ++ dquote ++ ")" ++ nl.
Definition dos_text : string := "a" ++ String CR nl ++ "b".

Definition hello_py : invocation :=
  mkInvocation "transpile.py" ["hello.py"]
    (fun p => if String.eqb p "hello.py" then RegularFile true hello_text
              else NoEntry).

Definition hello_py_again : invocation :=
  mkInvocation "./scripts/pipeline/transpile.py" ["hello.py"]
    (fun p => if String.eqb p "hello.py" then RegularFile true hello_text
              else if String.eqb p "other.py" then RegularFile true "pass"
              else NoEntry).

Definition hello_py_and_more : invocation :=
  mkInvocation "transpile.py" ["hello.py"; "--strict"; "out.ts"] (fsys hello_py).

Definition dos_txt : invocation :=
  mkInvocation "transpile.py" ["dos.txt"]
    (fun p => if String.eqb p "dos.txt" then RegularFile true dos_text
              else NoEntry).

Definition locked_py : invocation :=
  mkInvocation "transpile.py" ["locked.py"]
    (fun p => if String.eqb p "locked.py"
              then RegularFile false "secret" else NoEntry).

Definition missing_py : invocation :=
  mkInvocation "transpile.py" ["missing.py"] (fun _ => NoEntry).

Definition no_argument : invocation :=
  mkInvocation "transpile.py" [] (fun _ => NoEntry).

(** The world after more events. *)
Definition after (w : world) (evs : list event) : world :=
  mkWorld (argv w) (files w) (globals w) (trace w ++ evs).

(** The namespace once lines 2 to 58 have run. *)
Definition module_globals : list (string * pyobj) :=
  [("main", FunctionObj "main"); ("python2ts", ModuleObj "python2ts");
   ("os", ModuleObj "os"); ("sys", ModuleObj "sys")].

(** The events of lines 66 to 68 for a first argument [p] and what
    opening [p] gave. *)
Definition block_events (p : string) (o : handle + exn) : list event :=
  match o with
  | inl f =>
      if h_decodes f then
        [EvStdout (header ++ p ++ nl); EvOpen p true; EvRead (h_path f);
         EvStdout (universal_newlines (h_text f) ++ nl); EvClose (h_path f)]
      else
        [EvStdout (header ++ p ++ nl); EvOpen p true; EvRead (h_path f);
         EvClose (h_path f)]
  | inr _ => [EvStdout (header ++ p ++ nl); EvOpen p false]
  end.

Definition block_ending (o : handle + exn) : result unit :=
  match o with
  | inl f => if h_decodes f then Val tt else Exc UnicodeDecodeError
  | inr e => Exc e
  end.

(** The usage message of [main], as it would reach standard error. *)
Definition usage_line : string :=
  "Usage: python transpile.py <path_to_python_file>" ++ nl.

(** The actions only [main] performs: being called, checking that the
    path exists, writing to standard error. *)
Definition main_footprint (ev : event) : bool :=
  match ev with
  | EvCall name => String.eqb name "main"
  | EvExists _ => true
  | EvStderr _ => true
  | _ => false
  end.

Ltac close_footprint :=
  eexists; (split; [reflexivity|]); rewrite <- ?app_assoc; reflexivity.

(** ** Further definitions: the run of [main], counts over traces *)

(** How the handler of lines 56 to 58 ends a run in which [e] was raised
    inside the [try]: caught and reported if [e] is an [Exception],
    passed on otherwise. *)
Definition main_except (X : externals) (e : exn) (w : world) : result unit * world :=
  if is_Exception e then
    (Exc (SystemExit 1),
     after w [EvStderr ("An error occurred during transpilation: "
                        ++ str_exn X e ++ nl)])
  else (Exc e, w).

(** The first line of what [main] prints for [p]. *)
Definition transpiled_header (p : string) : string :=
  "// Transpiled content from " ++ os_path_basename p.

(** What a run of [main] comes to, by cases on the command line, the
    file system and the library. *)
Definition main_outcome (X : externals) (w : world) : result unit * world :=
  match argv w with
  | [_; p] =>
      if entry_exists (files w p) then
        match import_Schema X with
        | Some e => main_except X e (after w [EvExists p])
        | None =>
            match Schema_init X p with
            | Some e => main_except X e (after w [EvExists p])
            | None =>
                match open_result p (files w p) with
                | inr e => main_except X e (after w [EvExists p; EvOpen p false])
                | inl f =>
                    if h_decodes f then
                      (Val tt,
                       after w [EvExists p; EvOpen p true; EvRead (h_path f);
                                EvClose (h_path f);
                                EvStdout (transpiled_header p ++ nl ++ nl
                                          ++ universal_newlines (h_text f) ++ nl)])
                    else
                      main_except X UnicodeDecodeError
                        (after w [EvExists p; EvOpen p true; EvRead (h_path f);
                                  EvClose (h_path f)])
                end
            end
        end
      else
        (Exc (SystemExit 1),
         after w [EvExists p;
                  EvStderr ("Error: File not found at " ++ p ++ nl)])
  | _ => (Exc (SystemExit 1), after w [EvStderr usage_line])
  end.

(** A library that imports and constructs without complaint, and one
    whose import fails. *)
Definition sample_str (e : exn) : string :=
  match e with
  | LibraryError m => m
  | PermissionError p => "[Errno 13] Permission denied: " ++ p
  | IsADirectoryError p => "[Errno 21] Is a directory: " ++ p
  | FileNotFoundError p => "[Errno 2] No such file or directory: " ++ p
  | IndexError => "list index out of range"
  | NameError n => "name " ++ n ++ " is not defined"
  | NotADirectoryError p => "[Errno 20] Not a directory: " ++ p
  | OSError p => "[Errno 36] File name too long: " ++ p
  | UnicodeDecodeError => "codec cannot decode bytes"
  | SystemExit _ => EmptyString
  end.

Definition py2ts_fine : externals := mkExternals None (fun _ => None) sample_str.

Definition py2ts_without_Schema : externals :=
  mkExternals (Some (LibraryError "cannot import name Schema"))
    (fun _ => None) sample_str.

Definition py2ts_exiting : externals :=
  mkExternals (Some (SystemExit 3)) (fun _ => None) sample_str.

Definition nested_py : invocation :=
  mkInvocation "transpile.py" ["src/app/hello.py"]
    (fun p => if String.eqb p "src/app/hello.py" then RegularFile true hello_text
              else NoEntry).

Definition a_directory : invocation :=
  mkInvocation "transpile.py" ["src"]
    (fun p => if String.eqb p "src" then Directory else NoEntry).

Definition binary_png : invocation :=
  mkInvocation "transpile.py" ["logo.png"]
    (fun p => if String.eqb p "logo.png" then Undecodable true else NoEntry).

Definition under_a_file : invocation :=
  mkInvocation "transpile.py" ["hello.py/x"]
    (fun p => if String.eqb p "hello.py" then RegularFile true hello_text
              else if String.eqb p "hello.py/x" then UnderAFile
              else NoEntry).

Definition missing_and_more : invocation :=
  mkInvocation "transpile.py" ["missing.py"; "out.ts"] (fun _ => NoEntry).

Definition py2ts_Schema_exiting : externals :=
  mkExternals None (fun _ => Some (SystemExit 3)) sample_str.

Definition unix_txt : invocation :=
  mkInvocation "transpile.py" ["dos.txt"]
    (fun p => if String.eqb p "dos.txt" then RegularFile true ("a" ++ nl ++ "b")
              else NoEntry).

(** Files opened and files closed along a trace. *)
Definition opens (t : list event) : nat :=
  length (filter (fun ev => match ev with EvOpen _ true => true | _ => false end) t).

Definition closes (t : list event) : nat :=
  length (filter (fun ev => match ev with EvClose _ => true | _ => false end) t).

(** The path an action on the file system is about. *)
Definition path_of (ev : event) : option string :=
  match ev with
  | EvExists q | EvOpen q _ | EvRead q | EvClose q => Some q
  | _ => None
  end.

Definition only_about (p : string) (ev : event) : bool :=
  match path_of ev with
  | Some q => String.eqb q p
  | None => true
  end.

Definition has_slash (s : string) : bool :=
  existsb (Ascii.eqb "/"%char) (list_ascii_of_string s).

(** ** Text lemmas *)

Section Text.

Lemma append_empty_r (s : string) : s ++ EmptyString = s.
Proof. induction s as [|c s IH]; simpl; [reflexivity | now rewrite IH]. Qed.

Lemma append_assoc (a b c : string) : (a ++ b) ++ c = a ++ b ++ c.
Proof. induction a as [|x a IH]; simpl; [reflexivity | now rewrite IH]. Qed.

Lemma strip_prefix_append (pre s : string) : strip_prefix pre (pre ++ s) = Some s.
Proof.
  induction pre as [|c pre IH]; simpl.
  - reflexivity.
  - now rewrite Ascii.eqb_refl.
Qed.

Lemma has_CR_cons (c : ascii) (s : string) :
  has_CR (String c s) = Ascii.eqb CR c || has_CR s.
Proof. reflexivity. Qed.

Lemma universal_newlines_without_CR (s : string) :
  has_CR s = false -> universal_newlines s = s.
Proof.
  induction s as [|c s IH]; intros H.
  - reflexivity.
  - rewrite has_CR_cons in H. apply orb_false_iff in H as [Hc Hs].
    simpl. rewrite Ascii.eqb_sym, Hc. now rewrite IH.
Qed.

Lemma universal_newlines_cons (c : ascii) (r : string) :
  universal_newlines (String c r) =
    if Ascii.eqb c CR then
      match r with
      | String d r' =>
          if Ascii.eqb d LF then String LF (universal_newlines r')
          else String LF (universal_newlines r)
      | EmptyString => String LF EmptyString
      end
    else String c (universal_newlines r).
Proof. reflexivity. Qed.

Lemma universal_newlines_leaves_no_CR (s : string) :
  has_CR (universal_newlines s) = false.
Proof.
  assert (G : forall n s, (String.length s <= n)%nat ->
                          has_CR (universal_newlines s) = false).
  { intros n. induction n as [|n IH]; intros [|c r] Hlen;
      try reflexivity; cbn [String.length] in Hlen; try lia.
    rewrite universal_newlines_cons.
    destruct (Ascii.eqb c CR) eqn:Ec.
    - destruct r as [|d r']; [reflexivity|].
      cbn [String.length] in Hlen.
      destruct (Ascii.eqb d LF); rewrite has_CR_cons;
        change (Ascii.eqb CR LF) with false; cbn [orb];
        apply IH; cbn [String.length]; lia.
    - rewrite has_CR_cons, Ascii.eqb_sym, Ec. cbn [orb]. apply IH. lia. }
  apply (G (String.length s)). lia.
Qed.

End Text.

(** ** How the script runs *)

Section Execution.

(** Lines 66 to 68 from any state: an index error when [sys.argv] has
    no element 1; otherwise the header, then the attempt to open. *)
Lemma main_block_runs (w : world) :
  main_block w =
    match nth_error (argv w) 1 with
    | None => (Exc IndexError, w)
    | Some p =>
        let o := open_result p (files w p) in
        (block_ending o, after w (block_events p o))
    end.
Proof.
  unfold main_block, bind, sys_argv_index.
  destruct (nth_error (argv w) 1) as [p|] eqn:Hp; [|reflexivity].
  cbn [print_ emit argv files globals trace]. rewrite Hp.
  unfold with_open_r, bind, open_r. cbn [argv files globals trace].
  destruct (open_result p (files w p)) as [f|e] eqn:Ho.
  - destruct f as [hp ht [|]];
      unfold after, finally_, read, close, bind, emit, ret, raise; simpl;
      now rewrite <- !app_assoc.
  - unfold after, bind, emit, raise; simpl.
    now rewrite <- !app_assoc.
Qed.

(** Lines 1 to 58 only fill the namespace. *)
Lemma transpile_py_as_script (w : world) :
  transpile_py "__main__" w =
    main_block (mkWorld (argv w) (files w)
                  (module_globals ++ globals w) (trace w)).
Proof. reflexivity. Qed.

(** Imported under another name, the file writes and reads nothing:
    the guard of line 60 skips lines 66 to 68. *)
Lemma transpile_py_imported (name : string) (w : world) :
  String.eqb name "__main__" = false ->
  transpile_py name w =
    (Val tt, mkWorld (argv w) (files w) (module_globals ++ globals w) (trace w)).
Proof.
  intros H. unfold transpile_py, bind, import_, def_, bind_global; simpl.
  now rewrite H.
Qed.

(** The run of the script, by what the command line holds. *)
Lemma run_script_runs (inv : invocation) :
  run_script inv =
    match args inv with
    | [] => (Exc IndexError,
             mkWorld (script inv :: args inv) (fsys inv) module_globals [])
    | p :: _ =>
        let o := open_result p (fsys inv p) in
        (block_ending o,
         mkWorld (script inv :: args inv) (fsys inv) module_globals
           (block_events p o))
    end.
Proof.
  unfold run_script. rewrite transpile_py_as_script, main_block_runs.
  unfold boot; cbn [argv files globals trace nth_error].
  destruct (args inv) as [|p rest]; reflexivity.
Qed.

(** The same for lines 66 to 68 run on their own. *)
Lemma run_block_alone_runs (inv : invocation) :
  run_block_alone inv =
    match args inv with
    | [] => (Exc IndexError, mkWorld (script inv :: args inv) (fsys inv) [] [])
    | p :: _ =>
        let o := open_result p (fsys inv p) in
        (block_ending o,
         mkWorld (script inv :: args inv) (fsys inv) [] (block_events p o))
    end.
Proof.
  unfold run_block_alone. rewrite main_block_runs.
  unfold boot; cbn [argv files globals trace nth_error].
  destruct (args inv) as [|p rest]; reflexivity.
Qed.

(** Opening for reading fails exactly on what is not a readable regular
    file. *)
Lemma open_result_fails_iff (p : string) (e : fs_entry) :
  (exists x, open_result p e = inr x) <->
  (forall c, e <> RegularFile true c) /\ e <> Undecodable true.
Proof.
  split.
  - intros [x Hx]. split; [intros c ->|intros ->]; discriminate.
  - intros [H H']. destruct e as [| |[|] c| | |[|]]; simpl; eauto.
    + now destruct (H c).
    + now destruct H'.
Qed.

End Execution.

(** ** The unused function [main] *)

Section Main.

Variable X : externals.

Lemma main_wrong_argument_count (w : world) :
  length (argv w) <> 2%nat ->
  main X w = (Exc (SystemExit 1), after w [EvStderr usage_line]).
Proof.
  intros H. unfold main, bind, sys_argv_len.
  apply Nat.eqb_neq in H. rewrite H. reflexivity.
Qed.

Lemma main_file_not_found (w : world) (s p : string) :
  argv w = [s; p] ->
  files w p = NoEntry ->
  main X w =
    (Exc (SystemExit 1),
     after w [EvExists p; EvStderr ("Error: File not found at " ++ p ++ nl)]).
Proof.
  destruct w as [av fs g t]; cbn [argv files]; intros -> Hf.
  unfold main, bind, sys_argv_len, sys_argv_index, os_path_exists, bind, emit.
  cbn -[append]. rewrite Hf. cbn -[append].
  unfold after. cbn -[append]. now rewrite <- app_assoc.
Qed.

(** Whenever [main] runs, the first thing it does is a usage message on
    standard error or the existence check of its path. *)
Lemma main_starts_with_footprint (w : world) :
  exists ev evs, main_footprint ev = true /\
    trace (snd (main X w)) = (trace w ++ ev :: evs)%list.
Proof.
  destruct (Nat.eq_dec (length (argv w)) 2) as [Hlen|Hlen].
  - destruct w as [av fs g t]; cbn [argv trace] in *.
    destruct av as [|s [|p [|q rest]]]; try discriminate.
    exists (EvExists p).
    unfold main, bind, sys_argv_len, sys_argv_index, os_path_exists, bind, emit.
    cbn -[append].
    destruct (fs p) as [| |[|] c| | |[|]] eqn:Hf; cbn -[append];
      try close_footprint;
      unfold try_except_Exception, bind, outcome;
      (destruct (import_Schema X) as [e1|]; cbn -[append];
       [destruct (is_Exception e1); cbn -[append]; close_footprint|]);
      (destruct (Schema_init X p) as [e2|]; cbn -[append];
       [destruct (is_Exception e2); cbn -[append]; close_footprint|]);
      unfold with_open_r, open_r, bind; cbn -[append]; rewrite Hf;
      cbn -[append]; close_footprint.
  - rewrite (main_wrong_argument_count w Hlen).
    exists (EvStderr usage_line), []. split; reflexivity.
Qed.

(** Calling [main()] where the module has defined it is logged. *)
Lemma call_main_is_logged (w : world) :
  globals w = module_globals ->
  call_main X w = main X (after w [EvCall "main"]).
Proof.
  intros Hg. unfold call_main, bind, lookup_global. rewrite Hg. reflexivity.
Qed.

End Main.

(** ** Properties of the command-line behaviour *)

Section SuccessfulRun.

Variables (inv : invocation) (p c : string).
Hypothesis single_argument : args inv = [p].
Hypothesis readable : fsys inv p = RegularFile true c.

Lemma run_script_readable :
  run_script inv =
    (Val tt,
     mkWorld (script inv :: args inv) (fsys inv) module_globals
       [EvStdout (header ++ p ++ nl); EvOpen p true; EvRead p;
        EvStdout (universal_newlines c ++ nl); EvClose p]).
Proof.
  rewrite run_script_runs, single_argument.
  cbv zeta. rewrite readable. reflexivity.
Qed.

Lemma stdout_readable :
  stdout (run_script inv) = header ++ p ++ nl ++ universal_newlines c ++ nl.
Proof.
  rewrite run_script_readable. unfold stdout. cbn [snd trace stdout_of].
  now rewrite append_empty_r, !append_assoc.
Qed.

End SuccessfulRun.

(** C1, as the claim states it, fails: [print] ends what it writes with
    a line feed of its own, so the content of [hello.py] is followed by
    one more line feed; and a carriage return of the file does not reach
    standard output. *)
Lemma C1_counterexample :
  (args hello_py = ["hello.py"] /\
   fsys hello_py "hello.py" = RegularFile true hello_text /\
   stdout (run_script hello_py) <> header ++ "hello.py" ++ nl ++ hello_text) /\
  (args dos_txt = ["dos.txt"] /\
   fsys dos_txt "dos.txt" = RegularFile true dos_text /\
   stdout (run_script dos_txt) <> header ++ "dos.txt" ++ nl ++ dos_text).
Proof.
  repeat split; try reflexivity; intros H; vm_compute in H; discriminate H.
Qed.

(** C1 (amended): for a readable file at [p] with content [c], running
    the script with [p] as its single argument writes to standard output
    exactly the header, the path as given, a line feed, the content as a
    text-mode read returns it, and one line feed added by [print]. When
    the content has no carriage return, that is the header line, the
    content itself and one line feed. *)
Theorem C1_stdout_of_readable_file (inv : invocation) (p c : string) :
  args inv = [p] ->
  fsys inv p = RegularFile true c ->
  stdout (run_script inv) = header ++ p ++ nl ++ universal_newlines c ++ nl /\
  (has_CR c = false ->
   stdout (run_script inv) = header ++ p ++ nl ++ c ++ nl).
Proof.
  intros Ha Hf. split.
  - exact (stdout_readable inv p c Ha Hf).
  - intros Hc. rewrite (stdout_readable inv p c Ha Hf).
    now rewrite (universal_newlines_without_CR c Hc).
Qed.

Lemma C1_witness :
  args hello_py = ["hello.py"] /\
  fsys hello_py "hello.py" = RegularFile true hello_text /\
  has_CR hello_text = false /\
  stdout (run_script hello_py) =
    "// SIMULATED transpilation of hello.py" ++ nl ++ hello_text ++ nl.
Proof.
  split; [reflexivity|]. split; [reflexivity|]. split; [reflexivity|].
  apply (C1_stdout_of_readable_file hello_py "hello.py" hello_text);
    reflexivity.
Defined.

(** C2, as the claim states it, fails: what follows the header line of
    [hello.py] is the content and one more line feed; what follows the
    header line of [dos.txt] has a line feed where the file has a
    carriage return and a line feed. *)
Lemma C2_counterexample :
  (fsys hello_py "hello.py" = RegularFile true hello_text /\
   after_header "hello.py" (stdout (run_script hello_py)) <> Some hello_text) /\
  (fsys dos_txt "dos.txt" = RegularFile true dos_text /\
   after_header "dos.txt" (stdout (run_script dos_txt)) <> Some dos_text /\
   after_header "dos.txt" (stdout (run_script dos_txt)) <> Some (dos_text ++ nl)).
Proof.
  repeat split; try reflexivity; intros H; vm_compute in H; discriminate H.
Qed.

(** C2 (amended): for a readable file, what standard output holds after
    the header line is the file's content as a text-mode read returns it
    (line ends unified to line feeds, nothing else changed) followed by
    the one line feed [print] adds; for a content without carriage
    return it is the content itself followed by that line feed. *)
Theorem C2_after_header_is_content (inv : invocation) (p c : string) :
  args inv = [p] ->
  fsys inv p = RegularFile true c ->
  after_header p (stdout (run_script inv)) = Some (universal_newlines c ++ nl) /\
  (has_CR c = false ->
   after_header p (stdout (run_script inv)) = Some (c ++ nl)).
Proof.
  intros Ha Hf.
  assert (E : after_header p (stdout (run_script inv))
              = Some (universal_newlines c ++ nl)).
  { rewrite (stdout_readable inv p c Ha Hf). unfold after_header.
    rewrite <- (append_assoc p nl), <- (append_assoc header (p ++ nl)).
    apply strip_prefix_append. }
  split; [exact E|].
  intros Hc. rewrite E. now rewrite (universal_newlines_without_CR c Hc).
Qed.

Lemma C2_witness :
  args hello_py = ["hello.py"] /\
  fsys hello_py "hello.py" = RegularFile true hello_text /\
  has_CR hello_text = false /\
  after_header "hello.py" (stdout (run_script hello_py)) = Some (hello_text ++ nl).
Proof.
  split; [reflexivity|]. split; [reflexivity|]. split; [reflexivity|].
  apply (C2_after_header_is_content hello_py "hello.py" hello_text);
    reflexivity.
Defined.

Section FailedOpen.

Variables (inv : invocation) (p : string) (rest : list string) (e : exn).
Hypothesis first_argument : args inv = p :: rest.
Hypothesis cannot_open : open_result p (fsys inv p) = inr e.

Lemma run_script_cannot_open :
  run_script inv =
    (Exc e,
     mkWorld (script inv :: args inv) (fsys inv) module_globals
       [EvStdout (header ++ p ++ nl); EvOpen p false]).
Proof.
  rewrite run_script_runs, first_argument.
  cbv zeta. rewrite cannot_open. reflexivity.
Qed.

Lemma open_error_is_not_an_exit : exit_code (@Exc unit e) = 1%Z.
Proof.
  destruct (fsys inv p) as [| |[|] c| | |[|]]; simpl in cannot_open;
    inversion cannot_open; reflexivity.
Qed.

End FailedOpen.

(** A path that names nothing cannot be opened. *)
Lemma missing_cannot_be_opened (p : string) (entry : fs_entry) :
  entry_exists entry = false -> exists e, open_result p entry = inr e.
Proof.
  destruct entry as [| |[|] c| | |[|]]; cbn; intros H;
    try discriminate H; eauto.
Qed.

Lemma run_script_no_argument (inv : invocation) :
  args inv = [] ->
  run_script inv =
    (Exc IndexError,
     mkWorld (script inv :: args inv) (fsys inv) module_globals []).
Proof. intros Ha. rewrite run_script_runs, Ha. reflexivity. Qed.

(** C3, as the claim states it, fails: [missing.py] does not exist, the
    exit code is not zero, but standard output is not empty. *)
Lemma C3_counterexample :
  args missing_py = ["missing.py"] /\
  fsys missing_py "missing.py" = NoEntry /\
  status (run_script missing_py) <> 0%Z /\
  stdout (run_script missing_py) <> EmptyString.
Proof.
  repeat split; try reflexivity; intros H; vm_compute in H; discriminate H.
Qed.

(** C3 (amended): for a path that refers to no existing file, running
    the script with that path as its single argument ends with a
    non-zero exit code, and standard output holds the header line and
    nothing else: nothing is read from any file. *)
Theorem C3_missing_file (inv : invocation) (p : string) :
  args inv = [p] ->
  entry_exists (fsys inv p) = false ->
  status (run_script inv) <> 0%Z /\
  stdout (run_script inv) = header ++ p ++ nl /\
  existsb (fun ev => match ev with EvRead _ => true | _ => false end)
    (trace (snd (run_script inv))) = false.
Proof.
  intros Ha Hf.
  destruct (missing_cannot_be_opened p (fsys inv p) Hf) as [e Ho].
  pose proof (open_error_is_not_an_exit inv p e Ho) as Hcode.
  rewrite (run_script_cannot_open inv p [] e Ha Ho).
  unfold status, stdout; cbn [fst snd trace stdout_of existsb orb].
  rewrite append_empty_r, Hcode. repeat split. discriminate.
Qed.

Lemma C3_witness :
  (args missing_py = ["missing.py"] /\
   entry_exists (fsys missing_py "missing.py") = false /\
   status (run_script missing_py) <> 0%Z /\
   stdout (run_script missing_py)
     = "// SIMULATED transpilation of missing.py" ++ nl) /\
  (args under_a_file = ["hello.py/x"] /\
   entry_exists (fsys under_a_file "hello.py/x") = false /\
   status (run_script under_a_file) <> 0%Z /\
   stdout (run_script under_a_file)
     = "// SIMULATED transpilation of hello.py/x" ++ nl).
Proof.
  split.
  - split; [reflexivity|]. split; [reflexivity|].
    destruct (C3_missing_file missing_py "missing.py" eq_refl eq_refl)
      as (Hs & Ho & _).
    split; [exact Hs | exact Ho].
  - split; [reflexivity|]. split; [reflexivity|].
    destruct (C3_missing_file under_a_file "hello.py/x" eq_refl eq_refl)
      as (Hs & Ho & _).
    split; [exact Hs | exact Ho].
Defined.

(** C4: with no command-line argument the run ends with a non-zero exit
    code; it ends with the unhandled [IndexError] of [sys.argv[1]], no
    usage message (nothing at all) having been written to standard
    error; and standard output is empty. *)
Theorem C4_no_argument (inv : invocation) :
  args inv = [] ->
  status (run_script inv) <> 0%Z /\
  fst (run_script inv) = Exc IndexError /\
  stderr (run_script inv) = EmptyString /\
  stdout (run_script inv) = EmptyString.
Proof.
  intros Ha. rewrite (run_script_no_argument inv Ha).
  unfold status, stderr, stdout; cbn. repeat split. discriminate.
Qed.

Lemma C4_witness :
  args no_argument = [] /\
  status (run_script no_argument) <> 0%Z /\
  fst (run_script no_argument) = Exc IndexError /\
  stderr (run_script no_argument) = EmptyString /\
  stdout (run_script no_argument) = EmptyString.
Proof.
  split; [reflexivity|]. apply (C4_no_argument no_argument). reflexivity.
Defined.

(** C5: in every invocation nothing of [main] happens: it is not called,
    no existence check is made and nothing is written to standard error;
    and what can be observed of the run of the whole file (standard
    output, standard error, exit code, the way the run ends, the file
    system, and the order of all actions) is what can be observed of
    running lines 66 to 68 alone. *)
Theorem C5_main_is_dead_code (inv : invocation) :
  existsb main_footprint (trace (snd (run_script inv))) = false /\
  observe (run_script inv) = observe (run_block_alone inv) /\
  trace (snd (run_script inv)) = trace (snd (run_block_alone inv)).
Proof.
  rewrite run_script_runs, run_block_alone_runs.
  destruct (args inv) as [|p rest].
  - repeat split.
  - cbv zeta. destruct (open_result p (fsys inv p)) as [[hp ht [|]]|e]; repeat split.
Qed.

(** C6: when the single path argument cannot be opened for reading, the
    run ends with the exception of the failed [open]; the only actions
    are, in that order, writing the header line and the failed attempt
    to open; so standard output holds exactly the header, the path as
    given and a line feed. *)
Theorem C6_header_before_open (inv : invocation) (p : string) (e : exn) :
  args inv = [p] ->
  open_result p (fsys inv p) = inr e ->
  trace (snd (run_script inv)) = [EvStdout (header ++ p ++ nl); EvOpen p false] /\
  stdout (run_script inv) = header ++ p ++ nl /\
  fst (run_script inv) = Exc e /\
  status (run_script inv) <> 0%Z.
Proof.
  intros Ha Ho.
  pose proof (open_error_is_not_an_exit inv p e Ho) as Hcode.
  rewrite (run_script_cannot_open inv p [] e Ha Ho).
  unfold status, stdout; cbn [fst snd trace stdout_of].
  rewrite append_empty_r, Hcode. repeat split. discriminate.
Qed.

Lemma C6_witness :
  args locked_py = ["locked.py"] /\
  open_result "locked.py" (fsys locked_py "locked.py")
    = inr (PermissionError "locked.py") /\
  trace (snd (run_script locked_py)) =
    [EvStdout ("// SIMULATED transpilation of locked.py" ++ nl);
     EvOpen "locked.py" false] /\
  stdout (run_script locked_py) = "// SIMULATED transpilation of locked.py" ++ nl.
Proof.
  split; [reflexivity|]. split; [reflexivity|].
  destruct (C6_header_before_open locked_py "locked.py"
              (PermissionError "locked.py") eq_refl eq_refl)
    as (Ht & Ho & _).
  split; [exact Ht | exact Ho].
Defined.

(** C7, as the claim states it, fails: [logo.png] is an existing file
    that is opened for reading, so the run has an argument and no
    failed open; still the exit code is not 0, because reading the file
    as text raises [UnicodeDecodeError]. *)
Lemma C7_counterexample :
  args binary_png = ["logo.png"] /\
  entry_exists (fsys binary_png "logo.png") = true /\
  (exists f, open_result "logo.png" (fsys binary_png "logo.png") = inl f) /\
  fst (run_script binary_png) = Exc UnicodeDecodeError /\
  status (run_script binary_png) <> 0%Z.
Proof.
  split; [reflexivity|]. split; [reflexivity|].
  split; [eexists; reflexivity|]. split; [reflexivity|].
  intros H; vm_compute in H; discriminate H.
Qed.

(** C7 (amended): the exit code is 0 when the first argument is a
    readable text file (a readable file whose bytes decode); it is not
    0 when there is no argument, when the first argument cannot be
    opened for reading, and when it is opened but its bytes do not
    decode. *)
Theorem C7_exit_codes (inv : invocation) :
  (forall p rest c,
      args inv = p :: rest -> fsys inv p = RegularFile true c ->
      status (run_script inv) = 0%Z) /\
  (args inv = [] -> status (run_script inv) <> 0%Z) /\
  (forall p rest e,
      args inv = p :: rest -> open_result p (fsys inv p) = inr e ->
      status (run_script inv) <> 0%Z) /\
  (forall p rest,
      args inv = p :: rest -> fsys inv p = Undecodable true ->
      status (run_script inv) <> 0%Z).
Proof.
  split; [|split; [|split]].
  - intros p rest c Ha Hf. rewrite run_script_runs, Ha.
    cbv zeta. rewrite Hf. reflexivity.
  - intros Ha. rewrite (run_script_no_argument inv Ha). discriminate.
  - intros p rest e Ha Ho.
    pose proof (open_error_is_not_an_exit inv p e Ho) as Hcode.
    rewrite (run_script_cannot_open inv p rest e Ha Ho).
    unfold status; cbn [fst]. rewrite Hcode. discriminate.
  - intros p rest Ha Hf. rewrite run_script_runs, Ha.
    cbv zeta. rewrite Hf. discriminate.
Qed.

Lemma C7_witness :
  status (run_script hello_py) = 0%Z /\
  status (run_script no_argument) <> 0%Z /\
  status (run_script missing_py) <> 0%Z /\
  status (run_script locked_py) <> 0%Z /\
  status (run_script binary_png) <> 0%Z.
Proof.
  split; [|split; [|split; [|split]]].
  - apply (proj1 (C7_exit_codes hello_py) "hello.py" [] hello_text); reflexivity.
  - apply (proj1 (proj2 (C7_exit_codes no_argument))). reflexivity.
  - apply (proj1 (proj2 (proj2 (C7_exit_codes missing_py))) "missing.py" []
             (FileNotFoundError "missing.py")); reflexivity.
  - apply (proj1 (proj2 (proj2 (C7_exit_codes locked_py))) "locked.py" []
             (PermissionError "locked.py")); reflexivity.
  - apply (proj2 (proj2 (proj2 (C7_exit_codes binary_png))) "logo.png" []);
      reflexivity.
Defined.

(** C8: two invocations with the same path argument, whose file systems
    agree at that path, write the same standard output, whatever else
    differs (the script's name, other files, further arguments); the
    same holds of the exit code. *)
Theorem C8_same_input_same_output (inv1 inv2 : invocation)
    (p : string) (rest1 rest2 : list string) :
  args inv1 = p :: rest1 ->
  args inv2 = p :: rest2 ->
  fsys inv1 p = fsys inv2 p ->
  stdout (run_script inv1) = stdout (run_script inv2) /\
  status (run_script inv1) = status (run_script inv2).
Proof.
  intros H1 H2 Hf. rewrite !run_script_runs, H1, H2. cbv zeta.
  rewrite Hf. split; reflexivity.
Qed.

Lemma C8_witness :
  fsys hello_py "hello.py" = RegularFile true hello_text /\
  fsys hello_py_again "hello.py" = RegularFile true hello_text /\
  stdout (run_script hello_py) = stdout (run_script hello_py_again).
Proof.
  split; [reflexivity|]. split; [reflexivity|].
  apply (C8_same_input_same_output hello_py hello_py_again "hello.py" [] []);
    reflexivity.
Defined.

(** C9: in every invocation each action of the script is a write to
    standard output or a look at the file system (opening for reading,
    reading, closing); nothing is written to standard error, and the
    file system after the run is the file system before it. *)
Theorem C9_only_stdout_is_written (inv : invocation) :
  forallb (fun ev => writes_stdout ev || reads_file_system ev)
    (trace (snd (run_script inv))) = true /\
  existsb writes_stderr (trace (snd (run_script inv))) = false /\
  stderr (run_script inv) = EmptyString /\
  files_after (run_script inv) = fsys inv.
Proof.
  rewrite run_script_runs.
  destruct (args inv) as [|p rest].
  - repeat split.
  - cbv zeta. destruct (open_result p (fsys inv p)) as [[hp ht [|]]|e]; repeat split.
Qed.

(** C10, as the claim states it, fails: with two arguments, the first
    naming no file, the run fails. *)
Lemma C10_counterexample :
  args missing_and_more = ["missing.py"; "out.ts"] /\
  fst (run_script missing_and_more) = Exc (FileNotFoundError "missing.py") /\
  status (run_script missing_and_more) <> 0%Z.
Proof.
  split; [reflexivity|]. split; [reflexivity|].
  intros H; vm_compute in H; discriminate H.
Qed.

(** C10 (amended): with two or more arguments the run is the run with
    the first argument alone: same actions in the same order, same
    standard output, standard error, exit code, ending and file system;
    so it fails exactly when that run fails. The argument count raises
    nothing and no usage message is written; the exit code is 0 when
    the first argument is a readable text file. *)
Theorem C10_extra_arguments_ignored (inv : invocation)
    (p q : string) (rest : list string) :
  args inv = p :: q :: rest ->
  observe (run_script inv)
    = observe (run_script (mkInvocation (script inv) [p] (fsys inv))) /\
  trace (snd (run_script inv))
    = trace (snd (run_script (mkInvocation (script inv) [p] (fsys inv)))) /\
  fst (run_script inv) <> Exc IndexError /\
  stderr (run_script inv) = EmptyString /\
  (forall c, fsys inv p = RegularFile true c -> status (run_script inv) = 0%Z).
Proof.
  intros Ha. rewrite !run_script_runs, Ha.
  cbn [args script fsys]. cbv zeta.
  destruct (fsys inv p) as [| |[|] c| | |[|]] eqn:Hf; cbn [open_result];
    repeat split; try discriminate; intros c' Hc'; discriminate Hc'.
Qed.

Lemma C10_witness :
  args hello_py_and_more = ["hello.py"; "--strict"; "out.ts"] /\
  observe (run_script hello_py_and_more) = observe (run_script hello_py) /\
  status (run_script hello_py_and_more) = 0%Z.
Proof.
  split; [reflexivity|].
  destruct (C10_extra_arguments_ignored hello_py_and_more
              "hello.py" "--strict" ["out.ts"] eq_refl)
    as (Ho & _ & _ & _ & Hs).
  split; [exact Ho | exact (Hs hello_text eq_refl)].
Defined.

(** ** The function [main], had it been called *)

Section MainRuns.

Variable X : externals.

Ltac same_world :=
  unfold after, sys_exit, raise; cbn -[append];
  rewrite <- ?app_assoc, ?append_assoc; reflexivity.

Lemma main_except_handles (e : exn) (w : world) :
  try_except_Exception (raise e)
    (fun e' =>
       print_stderr ("An error occurred during transpilation: " ++ str_exn X e') ;;
       sys_exit 1) w
  = main_except X e w.
Proof.
  unfold try_except_Exception, main_except, raise.
  destruct (is_Exception e); [|reflexivity].
  unfold bind, print_stderr, emit, sys_exit, raise, after.
  now rewrite append_assoc.
Qed.

Lemma open_error_is_Exception (p : string) (entry : fs_entry) (e : exn) :
  open_result p entry = inr e -> is_Exception e = true.
Proof.
  destruct entry as [| |[|] c| | |[|]]; simpl; intros H; inversion H; reflexivity.
Qed.

(** Lines 6 to 58, from any state. *)
Lemma main_runs (w : world) : main X w = main_outcome X w.
Proof.
  destruct (Nat.eq_dec (length (argv w)) 2) as [Hlen|Hlen].
  - destruct w as [av fs g t]; cbn [argv] in Hlen.
    destruct av as [|s [|p [|q rest]]]; try discriminate.
    unfold main_outcome; cbn [argv files].
    unfold main, bind, sys_argv_len, sys_argv_index, os_path_exists, bind, emit.
    cbn -[append].
    destruct (fs p) as [| |[|] c| | |[|]] eqn:Hf; cbn -[append];
      try same_world;
      unfold try_except_Exception, bind, outcome, main_except;
      (destruct (import_Schema X) as [e1|]; cbn -[append];
       [destruct (is_Exception e1); cbn -[append]; same_world|]);
      (destruct (Schema_init X p) as [e2|]; cbn -[append];
       [destruct (is_Exception e2); cbn -[append]; same_world|]);
      unfold with_open_r, open_r, bind; cbn -[append]; rewrite Hf;
      cbn -[append]; unfold transpiled_header; same_world.
  - rewrite (main_wrong_argument_count X w Hlen).
    unfold main_outcome.
    destruct (argv w) as [|s [|p [|q rest]]]; try reflexivity.
    now destruct Hlen.
Qed.

End MainRuns.

Section MainBehaviour.

Variable X : externals.

(** X1: called with a command line that does not hold exactly one
    argument (none, or two and more), [main] writes the usage line to
    standard error, does nothing else (no look at the file system,
    nothing on standard output) and ends with [sys.exit(1)]. *)
Theorem X1_main_usage_error (w : world) :
  length (argv w) <> 2%nat ->
  fst (main X w) = Exc (SystemExit 1) /\
  exit_code (fst (main X w)) = 1%Z /\
  trace (snd (main X w)) = (trace w ++ [EvStderr usage_line])%list /\
  files (snd (main X w)) = files w.
Proof.
  intros Hlen. rewrite main_runs. unfold main_outcome.
  destruct (argv w) as [|s [|p [|q rest]]]; try (repeat split; fail).
  now destruct Hlen.
Qed.


Lemma main_success_run (w : world) (s p c : string) :
  argv w = [s; p] ->
  files w p = RegularFile true c ->
  import_Schema X = None ->
  Schema_init X p = None ->
  main X w =
    (Val tt,
     after w [EvExists p; EvOpen p true; EvRead p; EvClose p;
              EvStdout ("// Transpiled content from " ++ os_path_basename p
                        ++ nl ++ nl ++ universal_newlines c ++ nl)]).
Proof.
  intros Ha Hf Hi Hs. rewrite main_runs. unfold main_outcome.
  rewrite Ha, Hf, Hi, Hs. cbn [open_result h_text].
  unfold transpiled_header. now rewrite !append_assoc.
Qed.

(** X3: called with one argument that is a readable text file (its
    bytes decode), the library raising nothing, [main] returns normally after, in that order:
    checking the path, opening, reading and closing the file, and then
    printing one text: the line "// Transpiled content from" with the
    base name of the path, an empty line, the content as read, and the
    line feed of [print]. *)
Theorem X3_main_success (w : world) (s p c : string) :
  argv w = [s; p] ->
  files w p = RegularFile true c ->
  import_Schema X = None ->
  Schema_init X p = None ->
  fst (main X w) = Val tt /\
  trace (snd (main X w)) =
    (trace w ++
     [EvExists p; EvOpen p true; EvRead p; EvClose p;
      EvStdout ("// Transpiled content from " ++ os_path_basename p
                ++ nl ++ nl ++ universal_newlines c ++ nl)])%list.
Proof.
  intros Ha Hf Hi Hs. rewrite (main_success_run w s p c Ha Hf Hi Hs).
  split; reflexivity.
Qed.

(** X4: when the path exists and the library raises an [Exception]
    (importing [Schema], or constructing it), [main] catches it: it
    writes "An error occurred during transpilation:" with the text of
    the exception to standard error and ends with [sys.exit(1)]; the
    file is never opened and nothing reaches standard output. *)
Theorem X4_main_reports_library_failure (w : world) (s p : string) (e : exn) :
  argv w = [s; p] ->
  entry_exists (files w p) = true ->
  import_Schema X = Some e \/
    (import_Schema X = None /\ Schema_init X p = Some e) ->
  is_Exception e = true ->
  fst (main X w) = Exc (SystemExit 1) /\
  trace (snd (main X w)) =
    (trace w ++
     [EvExists p;
      EvStderr ("An error occurred during transpilation: "
                ++ str_exn X e ++ nl)])%list.
Proof.
  intros Ha Hf Hlib He. rewrite main_runs. unfold main_outcome.
  rewrite Ha, Hf.
  destruct Hlib as [Hi|[Hi Hs]]; rewrite Hi; try rewrite Hs;
    unfold main_except; rewrite He; unfold after; cbn [fst snd trace];
    (split; [reflexivity|]); now rewrite <- app_assoc.
Qed.

(** X5: when the path exists but cannot be opened for reading (a
    directory, a file without read permission) and the library raises
    nothing, [main] catches the error of [open]: the message with the
    text of that error goes to standard error, the run ends with
    [sys.exit(1)], and nothing reaches standard output. *)
Theorem X5_main_reports_open_failure (w : world) (s p : string) (e : exn) :
  argv w = [s; p] ->
  entry_exists (files w p) = true ->
  open_result p (files w p) = inr e ->
  import_Schema X = None ->
  Schema_init X p = None ->
  fst (main X w) = Exc (SystemExit 1) /\
  trace (snd (main X w)) =
    (trace w ++
     [EvExists p; EvOpen p false;
      EvStderr ("An error occurred during transpilation: "
                ++ str_exn X e ++ nl)])%list.
Proof.
  intros Ha Hf Ho Hi Hs. rewrite main_runs. unfold main_outcome.
  pose proof (open_error_is_Exception p _ e Ho) as He.
  rewrite Ha, Hf, Hi, Hs, Ho. unfold main_except; rewrite He.
  unfold after; cbn [fst snd trace].
  split; [reflexivity|]. now rewrite <- app_assoc.
Qed.

(** X6: what is raised inside the [try] by the library (importing
    [Schema], or constructing it) and is not an [Exception] (a
    [SystemExit]) is not caught by [except Exception]: [main] ends
    with it, no message is written and the file is not opened. *)
Theorem X6_main_lets_exit_through (w : world) (s p : string) (e : exn) :
  argv w = [s; p] ->
  entry_exists (files w p) = true ->
  import_Schema X = Some e \/
    (import_Schema X = None /\ Schema_init X p = Some e) ->
  is_Exception e = false ->
  fst (main X w) = Exc e /\
  trace (snd (main X w)) = (trace w ++ [EvExists p])%list.
Proof.
  intros Ha Hf Hlib He. rewrite main_runs. unfold main_outcome.
  rewrite Ha, Hf.
  destruct Hlib as [Hi|[Hi Hs]]; rewrite Hi; try rewrite Hs;
    unfold main_except; rewrite He; split; reflexivity.
Qed.

(** X7: no [Exception] ever leaves [main]: whatever the command line,
    the file system and the library, a run of [main] that does not
    return normally ends with something that is not an [Exception]
    (its own [sys.exit(1)], or an exit of the library); in particular
    never with an [IndexError] or an error of [open]. *)
Theorem X7_main_never_raises_Exception (w : world) (e : exn) :
  fst (main X w) = Exc e -> is_Exception e = false.
Proof.
  rewrite main_runs. unfold main_outcome.
  assert (G : forall e0 w0, fst (main_except X e0 w0) = Exc e ->
                            is_Exception e = false).
  { intros e0 w0. unfold main_except.
    destruct (is_Exception e0) eqn:E0; cbn [fst]; intros H; inversion H; subst;
      [reflexivity | exact E0]. }
  destruct (argv w) as [|s [|p [|q rest]]];
    try (cbn [fst]; intros H; inversion H; reflexivity).
  destruct (entry_exists (files w p));
    [|cbn [fst]; intros H; inversion H; reflexivity].
  destruct (import_Schema X); [apply G|].
  destruct (Schema_init X p); [apply G|].
  destruct (open_result p (files w p)) as [f|e1]; [|apply G].
  destruct (h_decodes f); [discriminate | apply G].
Qed.

(** X8: [main] returns normally exactly when the command line holds one
    argument, that argument is a readable text file (a regular file
    whose bytes decode), and the library raises nothing. *)
Theorem X8_main_succeeds_iff (w : world) :
  fst (main X w) = Val tt <->
  exists s p c,
    argv w = [s; p] /\ files w p = RegularFile true c /\
    import_Schema X = None /\ Schema_init X p = None.
Proof.
  split.
  - rewrite main_runs. unfold main_outcome.
    assert (G : forall e0 w0, fst (main_except X e0 w0) <> Val tt).
    { intros e0 w0. unfold main_except. destruct (is_Exception e0); discriminate. }
    destruct (argv w) as [|s [|p [|q rest]]] eqn:Ha; try discriminate.
    destruct (files w p) as [| |[|] c| | |[|]] eqn:Hf;
      cbn [entry_exists open_result h_decodes]; try discriminate;
      (destruct (import_Schema X) eqn:Hi; [intros H; now destruct (G _ _ H)|]);
      (destruct (Schema_init X p) eqn:Hs; [intros H; now destruct (G _ _ H)|]);
      try (intros H; now destruct (G _ _ H)).
    intros _. exists s, p, c. repeat split; reflexivity || assumption.
  - intros (s & p & c & Ha & Hf & Hi & Hs).
    now rewrite (main_success_run w s p c Ha Hf Hi Hs).
Qed.

End MainBehaviour.

Lemma X1_witness :
  length (argv (boot no_argument)) <> 2%nat /\
  fst (main py2ts_fine (boot no_argument)) = Exc (SystemExit 1) /\
  trace (snd (main py2ts_fine (boot no_argument))) = [EvStderr usage_line].
Proof.
  assert (H : length (argv (boot no_argument)) <> 2%nat) by (simpl; lia).
  split; [exact H|].
  destruct (X1_main_usage_error py2ts_fine (boot no_argument) H)
    as (He & _ & Ht & _).
  split; [exact He | exact Ht].
Defined.


Lemma X3_witness :
  argv (boot hello_py) = ["transpile.py"; "hello.py"] /\
  files (boot hello_py) "hello.py" = RegularFile true hello_text /\
  fst (main py2ts_fine (boot hello_py)) = Val tt /\
  stdout (main py2ts_fine (boot hello_py))
    = "// Transpiled content from hello.py" ++ nl ++ nl ++ hello_text ++ nl.
Proof.
  split; [reflexivity|]. split; [reflexivity|].
  destruct (X3_main_success py2ts_fine (boot hello_py)
              "transpile.py" "hello.py" hello_text
              eq_refl eq_refl eq_refl eq_refl) as (He & Ht).
  split; [exact He|]. unfold stdout. rewrite Ht. reflexivity.
Defined.

Lemma X4_witness :
  entry_exists (files (boot hello_py) "hello.py") = true /\
  import_Schema py2ts_without_Schema
    = Some (LibraryError "cannot import name Schema") /\
  fst (main py2ts_without_Schema (boot hello_py)) = Exc (SystemExit 1) /\
  stderr (main py2ts_without_Schema (boot hello_py))
    = "An error occurred during transpilation: cannot import name Schema" ++ nl.
Proof.
  split; [reflexivity|]. split; [reflexivity|].
  destruct (X4_main_reports_library_failure py2ts_without_Schema (boot hello_py)
              "transpile.py" "hello.py"
              (LibraryError "cannot import name Schema")
              eq_refl eq_refl (or_introl eq_refl) eq_refl) as (He & Ht).
  split; [exact He|]. unfold stderr. rewrite Ht. reflexivity.
Defined.

Lemma X5_witness :
  entry_exists (files (boot a_directory) "src") = true /\
  open_result "src" (files (boot a_directory) "src")
    = inr (IsADirectoryError "src") /\
  fst (main py2ts_fine (boot a_directory)) = Exc (SystemExit 1) /\
  stdout (main py2ts_fine (boot a_directory)) = EmptyString.
Proof.
  split; [reflexivity|]. split; [reflexivity|].
  destruct (X5_main_reports_open_failure py2ts_fine (boot a_directory)
              "transpile.py" "src" (IsADirectoryError "src")
              eq_refl eq_refl eq_refl eq_refl eq_refl) as (He & Ht).
  split; [exact He|]. unfold stdout. rewrite Ht. reflexivity.
Defined.

Lemma X6_witness :
  entry_exists (files (boot hello_py) "hello.py") = true /\
  import_Schema py2ts_Schema_exiting = None /\
  Schema_init py2ts_Schema_exiting "hello.py" = Some (SystemExit 3) /\
  fst (main py2ts_Schema_exiting (boot hello_py)) = Exc (SystemExit 3) /\
  stderr (main py2ts_Schema_exiting (boot hello_py)) = EmptyString.
Proof.
  split; [reflexivity|]. split; [reflexivity|]. split; [reflexivity|].
  destruct (X6_main_lets_exit_through py2ts_Schema_exiting (boot hello_py)
              "transpile.py" "hello.py" (SystemExit 3)
              eq_refl eq_refl (or_intror (conj eq_refl eq_refl)) eq_refl)
    as (He & Ht).
  split; [exact He|]. unfold stderr. rewrite Ht. reflexivity.
Defined.

Lemma X7_witness :
  fst (main py2ts_fine (boot a_directory)) = Exc (SystemExit 1) /\
  is_Exception (SystemExit 1) = false.
Proof.
  split; [reflexivity|].
  apply (X7_main_never_raises_Exception py2ts_fine (boot a_directory)).
  reflexivity.
Defined.

(** ** More on text: lengths, line ends, base names *)

Section MoreText.

Lemma append_length (a b : string) :
  String.length (a ++ b) = (String.length a + String.length b)%nat.
Proof. induction a as [|c a IH]; simpl; [reflexivity | now rewrite IH]. Qed.

Lemma has_CR_append (a b : string) : has_CR (a ++ b) = has_CR a || has_CR b.
Proof.
  induction a as [|c a IH]; [reflexivity|].
  change (String c a ++ b) with (String c (a ++ b)).
  now rewrite !has_CR_cons, IH, orb_assoc.
Qed.

Lemma has_slash_cons (c : ascii) (s : string) :
  has_slash (String c s) = Ascii.eqb "/"%char c || has_slash s.
Proof. reflexivity. Qed.

Lemma has_slash_append (a b : string) :
  has_slash (a ++ b) = has_slash a || has_slash b.
Proof.
  induction a as [|c a IH]; [reflexivity|].
  change (String c a ++ b) with (String c (a ++ b)).
  now rewrite !has_slash_cons, IH, orb_assoc.
Qed.

Lemma universal_newlines_length (s : string) :
  (String.length (universal_newlines s) <= String.length s)%nat.
Proof.
  assert (G : forall n s, (String.length s <= n)%nat ->
              (String.length (universal_newlines s) <= String.length s)%nat).
  { intros n. induction n as [|n IH]; intros [|c r] Hlen;
      try (simpl; lia); cbn [String.length] in Hlen; try lia.
    rewrite universal_newlines_cons.
    destruct (Ascii.eqb c CR).
    - destruct r as [|d r']; [simpl; lia|].
      cbn [String.length] in Hlen.
      destruct (Ascii.eqb d LF); cbn [String.length].
      + assert (String.length (universal_newlines r') <= String.length r')%nat
          by (apply IH; lia). lia.
      + assert (String.length (universal_newlines (String d r'))
                <= String.length (String d r'))%nat
          by (apply IH; cbn [String.length]; lia).
        cbn [String.length] in *. lia.
    - cbn [String.length].
      assert (String.length (universal_newlines r) <= String.length r)%nat
        by (apply IH; lia). lia. }
  apply (G (String.length s)). lia.
Qed.

Lemma universal_newlines_idempotent (s : string) :
  universal_newlines (universal_newlines s) = universal_newlines s.
Proof.
  apply universal_newlines_without_CR, universal_newlines_leaves_no_CR.
Qed.

(** What [os.path.basename] keeps: a text without slash that is the
    whole path, or what follows a slash of the path. *)
Lemma basename_from_keeps (s acc : string) :
  has_slash acc = false ->
  has_slash (basename_from s acc) = false /\
  ((has_slash s = false /\ basename_from s acc = acc ++ s) \/
   exists d, s = d ++ "/" ++ basename_from s acc).
Proof.
  revert acc. induction s as [|c r IH]; intros acc Hacc.
  - cbn [basename_from]. split; [exact Hacc|]. left.
    split; [reflexivity | now rewrite append_empty_r].
  - cbn [basename_from]. destruct (Ascii.eqb c "/"%char) eqn:Ec.
    + apply Ascii.eqb_eq in Ec. subst c.
      destruct (IH EmptyString eq_refl) as [Hb [[Hr Hbr]|[d Hd]]].
      * split; [exact Hb|]. right. exists EmptyString.
        cbn [append] in Hbr |- *. now rewrite Hbr.
      * split; [exact Hb|]. right. exists (String "/"%char d).
        cbn [append]. f_equal. exact Hd.
    + assert (Hacc' : has_slash (acc ++ String c EmptyString) = false).
      { rewrite has_slash_append, Hacc, has_slash_cons, Ascii.eqb_sym, Ec.
        reflexivity. }
      destruct (IH _ Hacc') as [Hb [[Hr Hbr]|[d Hd]]].
      * split; [exact Hb|]. left. split.
        -- now rewrite has_slash_cons, Ascii.eqb_sym, Ec, Hr.
        -- rewrite Hbr, append_assoc. reflexivity.
      * split; [exact Hb|]. right. exists (String c d).
        cbn [append]. f_equal. exact Hd.
Qed.

Lemma os_path_basename_keeps (p : string) :
  has_slash (os_path_basename p) = false /\
  (p = os_path_basename p \/ exists d, p = d ++ "/" ++ os_path_basename p).
Proof.
  unfold os_path_basename.
  destruct (basename_from_keeps p EmptyString eq_refl) as [Hb [[_ Hp]|Hd]].
  - split; [exact Hb|]. left. now rewrite Hp.
  - split; [exact Hb|]. now right.
Qed.

End MoreText.

(** ** More on the run of the script *)

Lemma stdout_first_argument_readable (inv : invocation)
    (p c : string) (rest : list string) :
  args inv = p :: rest ->
  fsys inv p = RegularFile true c ->
  stdout (run_script inv) = (header ++ p ++ nl) ++ universal_newlines c ++ nl.
Proof.
  intros Ha Hf. rewrite run_script_runs, Ha. cbv zeta. rewrite Hf.
  unfold stdout.
  cbn [snd trace open_result block_events stdout_of h_text h_decodes].
  now rewrite append_empty_r.
Qed.

(** X9: the exit code of the script is 0 or 1, and it is 0 exactly when
    there is a first argument and it is a readable text file (a
    readable regular file whose bytes decode). *)
Theorem X9_script_exit_code_zero_iff (inv : invocation) :
  (status (run_script inv) = 0%Z \/ status (run_script inv) = 1%Z) /\
  (status (run_script inv) = 0%Z <->
   exists p rest c, args inv = p :: rest /\ fsys inv p = RegularFile true c).
Proof.
  rewrite run_script_runs. unfold status.
  destruct (args inv) as [|p rest] eqn:Ha.
  - split; [now right|]. split; [discriminate|].
    intros (p & rest & c & H & _). discriminate H.
  - cbv zeta. destruct (fsys inv p) as [| |[|] c| | |[|]] eqn:Hf;
      cbn [open_result block_ending fst exit_code h_decodes];
      first
        [ split; [now left|]; split; [|reflexivity];
          intros _; exists p, rest, c; split; [reflexivity | exact Hf]
        | split; [now right|]; split; [discriminate|];
          intros (p' & rest' & c' & H & Hf'); inversion H; subst;
          rewrite Hf in Hf'; discriminate Hf' ].
Qed.

(** X10: standard output of the script is empty exactly when no
    argument is given: with an argument, something is written whatever
    the argument names. *)
Theorem X10_script_stdout_empty_iff (inv : invocation) :
  stdout (run_script inv) = EmptyString <-> args inv = [].
Proof.
  rewrite run_script_runs. unfold stdout.
  destruct (args inv) as [|p rest].
  - split; reflexivity.
  - cbv zeta. split; [|discriminate].
    destruct (open_result p (fsys inv p)) as [[hp ht [|]]|e]; cbn; discriminate.
Qed.

(** X11: the script looks at no path but its first argument: every
    action on the file system in a run is about that path, whatever
    other arguments are given. *)
Theorem X11_script_touches_first_argument_only (inv : invocation)
    (p : string) (rest : list string) :
  args inv = p :: rest ->
  forallb (only_about p) (trace (snd (run_script inv))) = true.
Proof.
  intros Ha. rewrite run_script_runs, Ha. cbv zeta.
  destruct (fsys inv p) as [| |[|] c| | |[|]];
    cbn [open_result block_events snd trace forallb only_about path_of h_path
         h_decodes];
    rewrite ?String.eqb_refl; reflexivity.
Qed.

Lemma X11_witness :
  args hello_py_and_more = ["hello.py"; "--strict"; "out.ts"] /\
  forallb (only_about "hello.py") (trace (snd (run_script hello_py_and_more)))
    = true.
Proof.
  split; [reflexivity|].
  apply (X11_script_touches_first_argument_only hello_py_and_more
           "hello.py" ["--strict"; "out.ts"]).
  reflexivity.
Defined.

(** X12: the script leaves no file open: in every run, as many files
    are closed as were opened (one when the first argument is readable,
    none otherwise), and at most one file is opened. *)
Theorem X12_script_closes_what_it_opens (inv : invocation) :
  opens (trace (snd (run_script inv))) = closes (trace (snd (run_script inv))) /\
  (opens (trace (snd (run_script inv))) <= 1)%nat.
Proof.
  rewrite run_script_runs.
  destruct (args inv) as [|p rest].
  - split; [reflexivity | cbn; lia].
  - cbv zeta.
    destruct (open_result p (fsys inv p)) as [[hp ht [|]]|e]; cbn; split; lia.
Qed.

(** X13: run as the entry point of a fresh process, [main] leaves no
    file open either (as many closed as opened, at most one), looks at
    no path but [sys.argv[1]], and leaves the file system as it was. *)
Theorem X13_main_closes_what_it_opens (X : externals) (inv : invocation) :
  opens (trace (snd (main X (boot inv))))
    = closes (trace (snd (main X (boot inv)))) /\
  (opens (trace (snd (main X (boot inv)))) <= 1)%nat /\
  forallb (only_about (nth 0 (args inv) EmptyString))
    (trace (snd (main X (boot inv)))) = true /\
  files (snd (main X (boot inv))) = fsys inv.
Proof.
  rewrite main_runs. unfold main_outcome, boot. cbn [argv files].
  destruct (args inv) as [|p [|q rest]]; try (cbn; repeat split; lia).
  cbn [nth].
  destruct (fsys inv p) as [| |[|] c| | |[|]];
    destruct (import_Schema X) as [e1|];
    try destruct (Schema_init X p) as [e2|];
    unfold main_except;
    try destruct (is_Exception e1); try destruct (is_Exception e2);
    cbn [entry_exists open_result h_decodes h_path h_text
         is_Exception after snd trace files app forallb
         only_about path_of opens closes filter length];
    rewrite ?String.eqb_refl; repeat split; cbn; lia.
Qed.

(** X14: executed under a name other than [__main__] (imported by
    another module), the file ends normally having written nothing and
    looked at nothing; it has only bound names, [main] among them. *)
Theorem X14_import_has_no_effect (name : string) (w : world) :
  name <> "__main__" ->
  fst (transpile_py name w) = Val tt /\
  trace (snd (transpile_py name w)) = trace w /\
  files (snd (transpile_py name w)) = files w /\
  argv (snd (transpile_py name w)) = argv w /\
  fst (lookup_global "main" (snd (transpile_py name w)))
    = Val (FunctionObj "main").
Proof.
  intros Hn. apply String.eqb_neq in Hn.
  rewrite (transpile_py_imported name w Hn). repeat split.
Qed.

Lemma X14_witness :
  "transpile" <> "__main__" /\
  fst (transpile_py "transpile" (boot hello_py)) = Val tt /\
  trace (snd (transpile_py "transpile" (boot hello_py))) = [].
Proof.
  assert (H : "transpile" <> "__main__") by discriminate.
  split; [exact H|].
  destruct (X14_import_has_no_effect "transpile" (boot hello_py) H)
    as (He & Ht & _).
  split; [exact He | exact Ht].
Defined.

(** X15: for a readable first argument, what the script writes after
    the header line holds no carriage return, and is at most one
    character longer than the file's content. *)
Theorem X15_echo_has_no_CR_and_is_short (inv : invocation)
    (p c : string) (rest : list string) :
  args inv = p :: rest ->
  fsys inv p = RegularFile true c ->
  exists t,
    after_header p (stdout (run_script inv)) = Some t /\
    has_CR t = false /\
    (String.length t <= String.length c + 1)%nat.
Proof.
  intros Ha Hf. exists (universal_newlines c ++ nl).
  rewrite (stdout_first_argument_readable inv p c rest Ha Hf).
  unfold after_header. rewrite strip_prefix_append.
  split; [reflexivity|]. split.
  - now rewrite has_CR_append, universal_newlines_leaves_no_CR.
  - rewrite append_length. pose proof (universal_newlines_length c).
    cbn [nl String.length]. lia.
Qed.

Lemma X15_witness :
  args dos_txt = ["dos.txt"] /\
  fsys dos_txt "dos.txt" = RegularFile true dos_text /\
  exists t,
    after_header "dos.txt" (stdout (run_script dos_txt)) = Some t /\
    has_CR t = false /\
    (String.length t <= String.length dos_text + 1)%nat.
Proof.
  split; [reflexivity|]. split; [reflexivity|].
  apply (X15_echo_has_no_CR_and_is_short dos_txt "dos.txt" dos_text []);
    reflexivity.
Defined.

(** X16: two readable files that differ only in how their lines end
    (carriage return and line feed, lone carriage return, or line feed)
    give the same standard output under the same path argument. *)
Theorem X16_line_end_convention_is_lost (inv1 inv2 : invocation)
    (p c1 c2 : string) (rest1 rest2 : list string) :
  args inv1 = p :: rest1 ->
  args inv2 = p :: rest2 ->
  fsys inv1 p = RegularFile true c1 ->
  fsys inv2 p = RegularFile true c2 ->
  universal_newlines c1 = universal_newlines c2 ->
  stdout (run_script inv1) = stdout (run_script inv2).
Proof.
  intros H1 H2 Hf1 Hf2 Hc.
  rewrite (stdout_first_argument_readable inv1 p c1 rest1 H1 Hf1).
  rewrite (stdout_first_argument_readable inv2 p c2 rest2 H2 Hf2).
  now rewrite Hc.
Qed.

Lemma X16_witness :
  fsys dos_txt "dos.txt" = RegularFile true dos_text /\
  fsys unix_txt "dos.txt" = RegularFile true ("a" ++ nl ++ "b") /\
  dos_text <> "a" ++ nl ++ "b" /\
  stdout (run_script dos_txt) = stdout (run_script unix_txt).
Proof.
  split; [reflexivity|]. split; [reflexivity|].
  split; [vm_compute; discriminate|].
  apply (X16_line_end_convention_is_lost dos_txt unix_txt "dos.txt"
           dos_text ("a" ++ nl ++ "b") [] []); reflexivity.
Defined.

(** ** More on [main]: its header, its two outputs, and the script *)

(** X17: the first line [main] prints names the file by its base name
    only: a text without slash that is the whole path or what follows
    the last slash of the path; the directory part is dropped. *)
Theorem X17_main_header_names_base_only (X : externals) (w : world)
    (s p c : string) :
  argv w = [s; p] ->
  files w p = RegularFile true c ->
  import_Schema X = None ->
  Schema_init X p = None ->
  exists b,
    stdout_of (trace (snd (main X w))) =
      stdout_of (trace w) ++
      "// Transpiled content from " ++ b ++ nl ++ nl
        ++ universal_newlines c ++ nl /\
    has_slash b = false /\
    (p = b \/ exists d, p = d ++ "/" ++ b).
Proof.
  intros Ha Hf Hi Hs. exists (os_path_basename p).
  rewrite (main_success_run X w s p c Ha Hf Hi Hs).
  destruct (os_path_basename_keeps p) as [Hb Hp].
  split; [|split; assumption].
  unfold after; cbn [snd trace].
  induction (trace w) as [|ev t IH].
  - cbn [app stdout_of]. now rewrite append_empty_r.
  - destruct ev; cbn [app stdout_of]; try exact IH.
    now rewrite IH, append_assoc.
Qed.

Lemma X17_witness :
  argv (boot nested_py) = ["transpile.py"; "src/app/hello.py"] /\
  files (boot nested_py) "src/app/hello.py" = RegularFile true hello_text /\
  exists b,
    stdout_of (trace (snd (main py2ts_fine (boot nested_py)))) =
      stdout_of (trace (boot nested_py)) ++
      "// Transpiled content from " ++ b ++ nl ++ nl
        ++ universal_newlines hello_text ++ nl /\
    has_slash b = false /\
    ("src/app/hello.py" = b \/ exists d, "src/app/hello.py" = d ++ "/" ++ b).
Proof.
  split; [reflexivity|]. split; [reflexivity|].
  apply (X17_main_header_names_base_only py2ts_fine (boot nested_py)
           "transpile.py" "src/app/hello.py" hello_text); reflexivity.
Defined.

(** X18: run as the entry point of a fresh process, [main] writes to
    standard output exactly when it returns normally, and then nothing
    to standard error: it never writes to both. *)
Theorem X18_main_writes_to_one_stream (X : externals) (inv : invocation) :
  (stdout (main X (boot inv)) <> EmptyString <->
   fst (main X (boot inv)) = Val tt) /\
  (stdout (main X (boot inv)) = EmptyString \/
   stderr (main X (boot inv)) = EmptyString).
Proof.
  rewrite main_runs. unfold main_outcome, boot, stdout, stderr.
  cbn [argv files].
  assert (G : forall e t,
    let r := main_except X e
               (mkWorld (script inv :: args inv) (fsys inv) [] t) in
    stdout_of t = EmptyString ->
    (stdout_of (trace (snd r)) <> EmptyString <-> fst r = Val tt) /\
    (stdout_of (trace (snd r)) = EmptyString \/
     stderr_of (trace (snd r)) = EmptyString)).
  { intros e t r Ht. subst r. unfold main_except.
    destruct (is_Exception e); cbn [fst snd after trace].
    - assert (E : stdout_of (t ++ [EvStderr ("An error occurred during transpilation: "
                                             ++ str_exn X e ++ nl)]) = EmptyString).
      { clear -Ht. induction t as [|ev t IH]; [reflexivity|].
        destruct ev; cbn [app stdout_of] in *; try (apply IH; exact Ht).
        destruct text; [apply IH; exact Ht | discriminate Ht]. }
      rewrite E. split; [|now left].
      split; [intros H; now destruct H | discriminate].
    - rewrite Ht. split; [|now left].
      split; [intros H; now destruct H | discriminate]. }
  destruct (args inv) as [|p [|q rest]].
  - cbn. split; [|now left]. split; [intros H; now destruct H | discriminate].
  - destruct (fsys inv p) as [| |[|] c| | |[|]];
      cbn [entry_exists open_result h_decodes h_path h_text];
      first
        [ cbn; split; [|now left];
          split; [intros H; now destruct H | discriminate]
        | (destruct (import_Schema X); [apply G; reflexivity|]);
          (destruct (Schema_init X p); [apply G; reflexivity|]);
          first
            [ apply G; reflexivity
            | cbn; split; [|now right]; split; [reflexivity | discriminate] ] ].
  - cbn. split; [|now left]. split; [intros H; now destruct H | discriminate].
Qed.

(** X19: with at most one argument and a library that raises nothing,
    [main] run as the entry point and the script end with the same exit
    code: the lines that run in place of [main] change what is written,
    not whether the run succeeds. *)
Theorem X19_main_and_script_agree_on_exit_code (X : externals)
    (inv : invocation) :
  (length (args inv) <= 1)%nat ->
  import_Schema X = None ->
  (forall p, Schema_init X p = None) ->
  exit_code (fst (main X (boot inv))) = status (run_script inv).
Proof.
  intros Hlen Hi Hs. rewrite main_runs, run_script_runs.
  unfold main_outcome, boot, status. cbn [argv files].
  destruct (args inv) as [|p [|q rest]]; [reflexivity| |cbn in Hlen; lia].
  cbv zeta. rewrite Hi, Hs.
  destruct (fsys inv p) as [| |[|] c| | |[|]]; reflexivity.
Qed.

Lemma X19_witness :
  (length (args missing_py) <= 1)%nat /\
  exit_code (fst (main py2ts_fine (boot missing_py)))
    = status (run_script missing_py).
Proof.
  assert (H : (length (args missing_py) <= 1)%nat) by (simpl; lia).
  split; [exact H|].
  apply (X19_main_and_script_agree_on_exit_code py2ts_fine missing_py H);
    reflexivity.
Defined.

(** X20: with two or more arguments, the first a readable text file, the
    script succeeds (exit code 0) where [main] would have refused the
    command line: usage line on standard error, exit code 1, the file
    not looked at. *)
Theorem X20_main_rejects_extra_arguments (X : externals) (inv : invocation)
    (p q c : string) (rest : list string) :
  args inv = p :: q :: rest ->
  fsys inv p = RegularFile true c ->
  status (run_script inv) = 0%Z /\
  exit_code (fst (main X (boot inv))) = 1%Z /\
  trace (snd (main X (boot inv))) = [EvStderr usage_line].
Proof.
  intros Ha Hf. rewrite main_runs, run_script_runs.
  unfold main_outcome, boot, status. cbn [argv files]. rewrite Ha.
  cbv zeta. rewrite Hf. repeat split.
Qed.

Lemma X20_witness :
  args hello_py_and_more = ["hello.py"; "--strict"; "out.ts"] /\
  fsys hello_py_and_more "hello.py" = RegularFile true hello_text /\
  status (run_script hello_py_and_more) = 0%Z /\
  exit_code (fst (main py2ts_fine (boot hello_py_and_more))) = 1%Z.
Proof.
  split; [reflexivity|]. split; [reflexivity|].
  destruct (X20_main_rejects_extra_arguments py2ts_fine hello_py_and_more
              "hello.py" "--strict" hello_text ["out.ts"] eq_refl eq_refl)
    as (Hs & Hm & _).
  split; [exact Hs | exact Hm].
Defined.

(** ** Files that do not decode *)

(** X21: when the first argument is a readable file whose bytes do not
    decode, the script writes the header line, opens the file, fails in
    reading it, closes it, and ends with the unhandled
    [UnicodeDecodeError]: exit code 1, the header line alone on
    standard output. *)
Theorem X21_script_on_undecodable_file (inv : invocation)
    (p : string) (rest : list string) :
  args inv = p :: rest ->
  fsys inv p = Undecodable true ->
  fst (run_script inv) = Exc UnicodeDecodeError /\
  status (run_script inv) = 1%Z /\
  trace (snd (run_script inv)) =
    [EvStdout (header ++ p ++ nl); EvOpen p true; EvRead p; EvClose p] /\
  stdout (run_script inv) = header ++ p ++ nl.
Proof.
  intros Ha Hf. rewrite run_script_runs, Ha. cbv zeta. rewrite Hf.
  unfold status, stdout.
  cbn [open_result block_events block_ending h_decodes h_path fst snd trace
       exit_code stdout_of].
  rewrite append_empty_r. repeat split.
Qed.

Lemma X21_witness :
  args binary_png = ["logo.png"] /\
  fsys binary_png "logo.png" = Undecodable true /\
  status (run_script binary_png) = 1%Z /\
  stdout (run_script binary_png) = "// SIMULATED transpilation of logo.png" ++ nl.
Proof.
  split; [reflexivity|]. split; [reflexivity|].
  destruct (X21_script_on_undecodable_file binary_png "logo.png" []
              eq_refl eq_refl) as (_ & Hs & _ & Ho).
  split; [exact Hs | exact Ho].
Defined.

(** X22: called with one argument that is a readable file whose bytes
    do not decode, the library raising nothing, [main] catches the
    [UnicodeDecodeError] of the read: the file is closed, the message
    with the text of the error goes to standard error, the run ends
    with [sys.exit(1)] and nothing reaches standard output. *)
Theorem X22_main_on_undecodable_file (X : externals) (w : world)
    (s p : string) :
  argv w = [s; p] ->
  files w p = Undecodable true ->
  import_Schema X = None ->
  Schema_init X p = None ->
  fst (main X w) = Exc (SystemExit 1) /\
  trace (snd (main X w)) =
    (trace w ++
     [EvExists p; EvOpen p true; EvRead p; EvClose p;
      EvStderr ("An error occurred during transpilation: "
                ++ str_exn X UnicodeDecodeError ++ nl)])%list.
Proof.
  intros Ha Hf Hi Hs. rewrite main_runs. unfold main_outcome.
  rewrite Ha, Hf, Hi, Hs.
  cbn [entry_exists open_result h_decodes h_path]. unfold main_except.
  cbn [is_Exception after fst snd trace].
  split; [reflexivity|]. now rewrite <- app_assoc.
Qed.

Lemma X22_witness :
  argv (boot binary_png) = ["transpile.py"; "logo.png"] /\
  files (boot binary_png) "logo.png" = Undecodable true /\
  fst (main py2ts_fine (boot binary_png)) = Exc (SystemExit 1) /\
  stdout (main py2ts_fine (boot binary_png)) = EmptyString.
Proof.
  split; [reflexivity|]. split; [reflexivity|].
  destruct (X22_main_on_undecodable_file py2ts_fine (boot binary_png)
              "transpile.py" "logo.png" eq_refl eq_refl eq_refl eq_refl)
    as (He & Ht).
  split; [exact He|]. unfold stdout. rewrite Ht. reflexivity.
Defined.
